(** * A shallow embedding of [java_type_checker/expressions.py]

    The Python module defines a small AST of Java expressions
    ([Variable], [Literal], [NullLiteral], [MethodCall], [ConstructorCall])
    with two operations, [static_type] and [check_types].  Exceptions are
    modelled by a result type, the in-place update of [actual_types] by
    list insertion at an index. *)

From stdpp Require Import base list strings pretty.

Local Open Scope string_scope.

(** ** Exceptions *)

(** The exceptions the module can raise.  [JavaTypeError] is the class
    declared at the end of the file; [NotImplementedError], [AttributeError]
    and [TypeError] are Python's builtins; [AttributeError cls attr] stands
    for the interpreter's report that an object of class [cls] has no
    attribute [attr].  [NoSuchMethod] is the exception of a failed
    [method_named]: it comes from [types.py], and the spec counts it among
    the type errors. *)
Inductive exception : Type :=
| JavaTypeError (msg : string)
| NotImplementedError (msg : string)
| AttributeError (cls attr : string)
| TypeError (msg : string)
| NoSuchMethod (type_name method_name : string).

Inductive result (A : Type) : Type :=
| Ok (a : A)
| Raise (e : exception).

Arguments Ok {A} a.
Arguments Raise {A} e.

#[export] Instance result_ret : MRet result := fun A a => Ok a.

#[export] Instance result_bind : MBind result := fun A B f m =>
  match m with
  | Ok a => f a
  | Raise e => Raise e
  end.

(** ** The Type capability *)

Module Method.
Record t (ty : Type) : Type := Build
  { argument_types : list ty; return_type : ty }.
Arguments Build {ty} argument_types return_type.
Arguments argument_types {ty} _.
Arguments return_type {ty} _.
End Method.

Module Constructor.
Record t (ty : Type) : Type := Build { argument_types : list ty }.
Arguments Build {ty} argument_types.
Arguments argument_types {ty} _.
End Constructor.

(** Modelled from the spec: the class [Type] of [java_type_checker/types.py],
    which [expressions.py] imports but which is not among the sources.  The
    spec describes it as a capability: a named entity with identity-based
    equality, a set of direct supertypes, a lookup of a method by name that
    fails when no such method exists, a constructor signature, and five
    distinguished instances [void], [boolean], [int], [double] and [null].
    [type_str] is the text Python's [format] produces for a type object; it
    occurs only in the message of [Variable.check_types]. *)
Class TypeCapability (ty : Type) : Type := {
  type_eq_dec :: EqDecision ty;
  name : ty → string;
  direct_supertypes : ty → list ty;
  method_named : ty → string → option (Method.t ty);
  constructor : ty → Constructor.t ty;
  type_str : ty → string;
  void : ty;
  boolean : ty;
  int : ty;
  double : ty;
  null : ty
}.

Section Expressions.
Context {ty : Type} `{TC : TypeCapability ty}.

(** [t.method_named(name)]: the lookup raises when [t] has no such method. *)
Definition lookup_method (t : ty) (method_name : string) : result (Method.t ty) :=
  match method_named t method_name with
  | Some m => Ok m
  | None => Raise (NoSuchMethod (name t) method_name)
  end.

(** The list [[Type.void, Type.boolean, Type.int, Type.double, Type.null]]
    both [check_types] of the call nodes test membership in. *)
Definition distinguished : list ty := [void; boolean; int; double; null].

(** ** The AST *)

(** The five classes of the module.  The class [Variable] is spelled
    [VariableExpr], its name being a reserved word here; [args] is the tuple
    the constructor collects from its [*args]. *)
#[warnings="-register-all"]
Inductive Expression : Type :=
| VariableExpr (name : string) (declared_type : ty)
| Literal (value : string) (type : ty)
| NullLiteral
| MethodCall (receiver : Expression) (method_name : string) (args : list Expression)
| ConstructorCall (instantiated_type : ty) (args : list Expression).

(** [type(self).__name__] *)
Definition class_name (e : Expression) : string :=
  match e with
  | VariableExpr _ _ => "Variable"
  | Literal _ _ => "Literal"
  | NullLiteral => "NullLiteral"
  | MethodCall _ _ _ => "MethodCall"
  | ConstructorCall _ _ => "ConstructorCall"
  end.

(** Reading the attribute [declared_type] of an expression object: only
    [Variable.__init__] sets it. *)
Definition declared_type (e : Expression) : result ty :=
  match e with
  | VariableExpr _ d => Ok d
  | _ => Raise (AttributeError (class_name e) "declared_type")
  end.

(** ** [static_type] *)

(** [Expression.static_type] and [Expression.check_types], the methods of
    the base class: a subclass that does not override one of them inherits
    it.  All five classes override [static_type]. *)
Definition Expression_static_type (self : Expression) : result ty :=
  Raise (NotImplementedError (class_name self +:+ " must implement static_type()")).

Definition Expression_check_types (self : Expression) : result unit :=
  Raise (NotImplementedError (class_name self +:+ " must implement check_types()")).

Fixpoint static_type (e : Expression) : result ty :=
  match e with
  | VariableExpr _ declared_type => Ok declared_type
  | Literal _ type => Ok type
  | NullLiteral => Ok null
  | MethodCall receiver method_name _ =>
      t ← static_type receiver;
      m ← lookup_method t method_name;
      Ok (Method.return_type m)
  | ConstructorCall instantiated_type _ => Ok instantiated_type
  end.

(** The loop [for item in self.args: actual_types.append(item.static_type())];
    the first argument whose [static_type] raises ends it. *)
Fixpoint static_types (args : list Expression) : result (list ty) :=
  match args with
  | [] => Ok []
  | item :: rest =>
      t ← static_type item;
      ts ← static_types rest;
      Ok (t :: ts)
  end.

(** ** The formatting helper [names] *)

(** [sep.join(l)] *)
Fixpoint join (sep : string) (l : list string) : string :=
  match l with
  | [] => ""
  | [x] => x
  | x :: rest => x +:+ sep +:+ join sep rest
  end.

Definition names (named_things : list ty) : string :=
  "(" +:+ join ", " (name <$> named_things) +:+ ")".

(** ** The promotion loop of [MethodCall.check_types] *)

(** One iteration of
    [if expected_types[i] in actual_types[i].direct_supertypes:
       actual_types[i] = expected_types[i]].
    An index out of range raises [IndexError] in Python; the loop runs only
    after the two lengths were found equal, so that branch is not reached
    and the list is left as it is. *)
Definition promote_at (expected_types actual_types : list ty) (i : nat) : list ty :=
  match expected_types !! i, actual_types !! i with
  | Some e, Some a =>
      if bool_decide (e ∈ direct_supertypes a)
      then <[i := e]> actual_types
      else actual_types
  | _, _ => actual_types
  end.

(** [for i in range(0, len(expected_types)): ...] *)
Definition promote (expected_types actual_types : list ty) : list ty :=
  foldl (promote_at expected_types) actual_types (seq 0 (length expected_types)).

(** ** [check_types] *)

(** [Literal] and [NullLiteral] have no [check_types] of their own and
    inherit the one of [Expression].  [receiver.static_type()] is evaluated
    up to three times by [MethodCall.check_types]; it has no effect, so it
    is bound once.  [argument_types] is taken to be a list, as
    [actual_types] is: Python never finds a list equal to a tuple. *)
Definition check_types (e : Expression) : result unit :=
  match e with
  | VariableExpr n declared_type =>
      if bool_decide (declared_type ≠ declared_type) then
        Raise (TypeError
          ("Wrong type of argument for variable creation: expected <class 'str'>, got "
           +:+ type_str declared_type))
      else Ok ()
  | Literal _ _ | NullLiteral => Expression_check_types e
  | MethodCall receiver method_name args =>
      t ← static_type receiver;
      if bool_decide (t ∈ distinguished) then
        Raise (JavaTypeError ("Type " +:+ name t +:+ " does not have methods"))
      else
        m ← lookup_method t method_name;
        let expected_types := Method.argument_types m in
        d ← declared_type receiver;
        let call_name := name d +:+ "." +:+ method_name +:+ "()" in
        actual_types ← static_types args;
        if bool_decide (length actual_types ≠ length expected_types) then
          Raise (JavaTypeError
            ("Wrong number of arguments for " +:+ call_name
             +:+ ": expected " +:+ pretty (length expected_types)
             +:+ ", got " +:+ pretty (length actual_types)))
        else if bool_decide (expected_types ≠ actual_types) then
          let actual_types := promote expected_types actual_types in
          if bool_decide (expected_types ≠ actual_types) then
            Raise (JavaTypeError
              (call_name +:+ " expects arguments of type " +:+ names expected_types
               +:+ ", but got " +:+ names actual_types))
          else Ok ()
        else Ok ()
  | ConstructorCall instantiated_type args =>
      if bool_decide (instantiated_type ∈ distinguished) then
        Raise (JavaTypeError ("Type " +:+ name instantiated_type +:+ " is not instantiable"))
      else
        actual_types ← static_types args;
        let expected_types := Constructor.argument_types (constructor instantiated_type) in
        if bool_decide (length actual_types ≠ length expected_types) then
          Raise (JavaTypeError
            ("Wrong number of arguments for " +:+ name instantiated_type
             +:+ " constructor: expected " +:+ pretty (length expected_types)
             +:+ ", got " +:+ pretty (length actual_types)))
        else if bool_decide (actual_types ≠ expected_types) then
          Raise (JavaTypeError
            (name instantiated_type +:+ " constructor expects arguments of type "
             +:+ names expected_types +:+ ", but got " +:+ names actual_types))
        else Ok ()
  end.

(** ** Auxiliary definitions for the statements below *)

(** The exception of a failed lookup. *)
Definition is_NoSuchMethod (x : exception) : Prop :=
  match x with NoSuchMethod _ _ => True | _ => False end.

(** What the loop leaves at one position. *)
Definition widen (e a : ty) : ty :=
  if bool_decide (e ∈ direct_supertypes a) then e else a.

(** The two texts [check_types] of a method call builds more than once. *)
Definition arity_message (call : string) (expected actual : list ty) : string :=
  "Wrong number of arguments for " +:+ call
  +:+ ": expected " +:+ pretty (length expected)
  +:+ ", got " +:+ pretty (length actual).

Definition qualified_call (d : ty) (method_name : string) : string :=
  name d +:+ "." +:+ method_name +:+ "()".

End Expressions.

Arguments Expression ty : clear implicits.

(** * A small class table

    A concrete Type capability to run the checker on: the five distinguished
    types and a few classes, among them the chain
    [Square] < [Rectangle] < [Shape] < [Object]. *)

Module Graphics.

Inductive JavaType : Type :=
| Void | Boolean | Int | Double | Null
| Object | JString | Point | Shape | Rectangle | Square | Canvas.

#[export] Instance JavaType_eq_dec : EqDecision JavaType.
Proof. solve_decision. Defined.

Definition type_name (t : JavaType) : string :=
  match t with
  | Void => "void" | Boolean => "boolean" | Int => "int" | Double => "double"
  | Null => "null" | Object => "Object" | JString => "String" | Point => "Point"
  | Shape => "Shape" | Rectangle => "Rectangle" | Square => "Square"
  | Canvas => "Canvas"
  end.

Definition supertypes (t : JavaType) : list JavaType :=
  match t with
  | JString | Point | Shape | Canvas => [Object]
  | Rectangle => [Shape]
  | Square => [Rectangle]
  | _ => []
  end.

Definition object_methods (m : string) : option (Method.t JavaType) :=
  if String.eqb m "equals" then Some (Method.Build [Object] Boolean)
  else if String.eqb m "hashCode" then Some (Method.Build [] Int)
  else None.

Definition methods (t : JavaType) (m : string) : option (Method.t JavaType) :=
  match t with
  | Void | Boolean | Int | Double | Null => None
  | Object => object_methods m
  | JString =>
      if String.eqb m "length" then Some (Method.Build [] Int)
      else object_methods m
  | Point =>
      if String.eqb m "getX" then Some (Method.Build [] Int)
      else object_methods m
  | Canvas =>
      if String.eqb m "draw" then Some (Method.Build [Shape] Void)
      else if String.eqb m "place" then Some (Method.Build [Shape; Point] Void)
      else if String.eqb m "origin" then Some (Method.Build [] Point)
      else object_methods m
  | Shape | Rectangle | Square => object_methods m
  end.

Definition constructors (t : JavaType) : Constructor.t JavaType :=
  match t with
  | Point => Constructor.Build [Int; Int]
  | Rectangle => Constructor.Build [Point; Point]
  | Canvas => Constructor.Build [Shape]
  | _ => Constructor.Build []
  end.

#[export] Instance capability : TypeCapability JavaType := {|
  name := type_name;
  direct_supertypes := supertypes;
  method_named := methods;
  constructor := constructors;
  type_str := type_name;
  void := Void; boolean := Boolean; int := Int; double := Double; null := Null
|}.

(** Expressions over the class table. *)
Definition var_c : Expression JavaType := VariableExpr "c" Canvas.
Definition new_canvas : Expression JavaType :=
  ConstructorCall Canvas [VariableExpr "s" Shape].
Definition var_r : Expression JavaType := VariableExpr "r" Rectangle.
Definition var_q : Expression JavaType := VariableExpr "q" Square.
Definition lit_hi : Expression JavaType := Literal "hi" JString.
Definition origin_of_c : Expression JavaType := MethodCall var_c "origin" [].
Definition var_p : Expression JavaType := VariableExpr "p" Point.
Definition new_point : Expression JavaType :=
  ConstructorCall Point [Literal "0" Int; Literal "0" Int].

End Graphics.

(** * Properties of the checker *)

Section Properties.
Context {ty : Type} `{TC : TypeCapability ty}.
Implicit Types (t d : ty) (receiver item : Expression ty) (args : list (Expression ty)).
Implicit Types (expected actual : list ty).

(** ** The result monad *)

Lemma bind_Ok {A B} (m : result A) (f : A → result B) (b : B) :
  m ≫= f = Ok b → ∃ a, m = Ok a ∧ f a = Ok b.
Proof. destruct m as [a|x]; simpl; [eauto | discriminate]. Qed.

(** ** What [static_type] can raise *)

Lemma lookup_method_raises t m x :
  lookup_method t m = Raise x → is_NoSuchMethod x.
Proof.
  unfold lookup_method. destruct (method_named t m); [discriminate |].
  intros [= <-]. exact I.
Qed.

Lemma static_type_raises (e : Expression ty) x : static_type e = Raise x → is_NoSuchMethod x.
Proof.
  induction e as [n d | v t | | receiver IH m args | t args]; simpl;
    try discriminate.
  destruct (static_type receiver) as [t|y]; simpl.
  - destruct (lookup_method t m) as [meth|y] eqn:Hm; simpl; [discriminate |].
    intros [= <-]. by eapply lookup_method_raises.
  - intros [= <-]. by apply IH.
Qed.

Lemma static_types_raises args x : static_types args = Raise x → is_NoSuchMethod x.
Proof.
  induction args as [| item rest IH]; simpl; [discriminate |].
  destruct (static_type item) as [t|y] eqn:Ht; simpl.
  - destruct (static_types rest) as [ts|y]; simpl; [discriminate |].
    intros [= <-]. by apply IH.
  - intros [= <-]. by eapply static_type_raises.
Qed.

(** [static_types] collects the static types of the arguments, in order. *)
Lemma static_types_Ok args actual :
  static_types args = Ok actual ↔
  Forall2 (λ item t, static_type item = Ok t) args actual.
Proof.
  revert actual. induction args as [| item rest IH]; intros actual; simpl.
  - split; [intros [= <-]; constructor | by inversion 1].
  - split.
    + intros H. apply bind_Ok in H as (t & Ht & H).
      apply bind_Ok in H as (ts & Hts & [= <-]).
      constructor; [done | by apply IH].
    + inversion 1 as [| ? t ? ts Ht Hts]; subst.
      apply IH in Hts. by rewrite Ht, Hts.
Qed.

Lemma static_types_length args actual :
  static_types args = Ok actual → length actual = length args.
Proof. intros H%static_types_Ok. symmetry. by eapply Forall2_length. Qed.

(** ** The promotion loop *)

Lemma promote_prefix expected actual (k : nat) :
  length expected = length actual → (k ≤ length expected)%nat →
  foldl (promote_at expected) actual (seq 0 k)
  = (zip_with widen (take k expected) (take k actual) ++ drop k actual)%list.
Proof.
  intros Hlen. induction k as [| k IH]; intros Hk.
  - by rewrite !take_0, drop_0.
  - rewrite seq_S, foldl_app, IH by lia. simpl.
    destruct (lookup_lt_is_Some_2 expected k) as [ek Hek]; [lia |].
    destruct (lookup_lt_is_Some_2 actual k) as [ak Hak]; [lia |].
    set (pre := zip_with widen (take k expected) (take k actual)).
    assert (length pre = k) as Hpre.
    { unfold pre. rewrite length_zip_with, !length_take. lia. }
    unfold promote_at. rewrite Hek.
    rewrite lookup_app_r, Hpre, Nat.sub_diag, lookup_drop, Nat.add_0_r, Hak by lia.
    rewrite (take_S_r _ _ _ Hek), (take_S_r _ _ _ Hak).
    rewrite zip_with_app by (rewrite !length_take; lia).
    fold pre. simpl. rewrite <- app_assoc. simpl.
    rewrite (drop_S _ _ _ Hak). unfold widen.
    case_bool_decide; [| done].
    replace k with (length pre + 0) at 1 by lia.
    by rewrite insert_app_r.
Qed.

(** After the arity check the loop is a position-wise map. *)
Lemma promote_zip_with expected actual :
  length expected = length actual →
  promote expected actual = zip_with widen expected actual.
Proof.
  intros Hlen. unfold promote. rewrite promote_prefix by lia.
  rewrite !take_ge, drop_ge by lia. apply app_nil_r.
Qed.

Lemma promote_lookup expected actual (i : nat) (e a : ty) :
  length expected = length actual →
  expected !! i = Some e → actual !! i = Some a →
  promote expected actual !! i = Some (widen e a).
Proof.
  intros Hlen He Ha. rewrite promote_zip_with by done.
  rewrite lookup_zip_with, He, Ha. done.
Qed.

(** Every position is equal or one level apart: the loop yields [expected]. *)
Lemma promote_widening expected actual :
  Forall2 (λ e a, e = a ∨ e ∈ direct_supertypes a) expected actual →
  promote expected actual = expected.
Proof.
  intros H. rewrite promote_zip_with by by eapply Forall2_length.
  induction H as [| e a es as_ Hhd _ IH]; simpl; [done |].
  f_equal; [| done]. unfold widen.
  case_bool_decide; [done |]. by destruct Hhd.
Qed.

(** A position neither equal nor one level apart survives the loop. *)
Lemma promote_mismatch expected actual (i : nat) (e a : ty) :
  length expected = length actual →
  expected !! i = Some e → actual !! i = Some a →
  a ≠ e → e ∉ direct_supertypes a →
  promote expected actual ≠ expected.
Proof.
  intros Hlen He Ha Hne Hnot Heq.
  pose proof (promote_lookup _ _ _ _ _ Hlen He Ha) as Hi.
  rewrite Heq, He in Hi. injection Hi as Hi.
  unfold widen in Hi. by case_bool_decide.
Qed.

Lemma promote_same expected : promote expected expected = expected.
Proof. apply promote_widening, Forall_Forall2_diag, Forall_forall; auto. Qed.

(** ** The formatting helper *)

Lemma names_nil : names [] = "()".
Proof. reflexivity. Qed.

Lemma names_singleton t : names [t] = "(" +:+ name t +:+ ")".
Proof. reflexivity. Qed.

Lemma join_cons sep x y l : join sep (x :: y :: l) = x +:+ sep +:+ join sep (y :: l).
Proof. reflexivity. Qed.

(** ** [check_types] unfolded *)

(** A method call that gets past the receiver test, the lookup and the read
    of [declared_type], and whose arguments all have a static type. *)
Lemma check_types_method_call receiver m args t meth d actual :
  static_type receiver = Ok t → t ∉ distinguished →
  method_named t m = Some meth → declared_type receiver = Ok d →
  static_types args = Ok actual →
  check_types (MethodCall receiver m args) =
    let expected := Method.argument_types meth in
    if bool_decide (length actual ≠ length expected) then
      Raise (JavaTypeError (arity_message (qualified_call d m) expected actual))
    else if bool_decide (expected ≠ promote expected actual) then
      Raise (JavaTypeError
        (qualified_call d m +:+ " expects arguments of type " +:+ names expected
         +:+ ", but got " +:+ names (promote expected actual)))
    else Ok ().
Proof.
  intros Ht Hnd Hm Hd Hargs. unfold check_types; fold (@static_type ty TC).
  rewrite Ht. simpl. rewrite (bool_decide_eq_false_2 _ Hnd).
  unfold lookup_method. rewrite Hm. simpl. rewrite Hd. simpl.
  rewrite Hargs. simpl.
  case_bool_decide; [done |].
  destruct (decide (Method.argument_types meth = actual)) as [<- | Hne].
  - rewrite promote_same. by rewrite bool_decide_eq_false_2 by congruence.
  - by rewrite (bool_decide_eq_true_2 _ Hne).
Qed.

(** A constructor call of a type that can be instantiated, whose arguments
    all have a static type. *)
Lemma check_types_constructor_call t args actual :
  t ∉ distinguished → static_types args = Ok actual →
  check_types (ConstructorCall t args) =
    let expected := Constructor.argument_types (constructor t) in
    if bool_decide (length actual ≠ length expected) then
      Raise (JavaTypeError
        ("Wrong number of arguments for " +:+ name t
         +:+ " constructor: expected " +:+ pretty (length expected)
         +:+ ", got " +:+ pretty (length actual)))
    else if bool_decide (actual ≠ expected) then
      Raise (JavaTypeError
        (name t +:+ " constructor expects arguments of type "
         +:+ names expected +:+ ", but got " +:+ names actual))
    else Ok ().
Proof.
  intros Hnd Hargs. unfold check_types.
  rewrite (bool_decide_eq_false_2 _ Hnd), Hargs. done.
Qed.

(** ** Method calls on a variable *)

(** X13.  Exact argument types: the call checks, and its static type is the
    declared return type. *)
Lemma method_call_exact_types n d m args meth :
  d ∉ distinguished → method_named d m = Some meth →
  static_types args = Ok (Method.argument_types meth) →
  check_types (MethodCall (VariableExpr n d) m args) = Ok ()
  ∧ static_type (MethodCall (VariableExpr n d) m args) = Ok (Method.return_type meth).
Proof.
  intros Hnd Hm Hargs. split.
  - rewrite (check_types_method_call (VariableExpr n d) m args d meth d _ eq_refl Hnd Hm eq_refl Hargs).
    simpl. rewrite promote_same. by rewrite !bool_decide_eq_false_2 by congruence.
  - simpl. unfold lookup_method. by rewrite Hm.
Qed.

(** One level of widening at the positions that differ: the call checks. *)
Lemma method_call_one_level n d m args meth actual :
  d ∉ distinguished → method_named d m = Some meth →
  static_types args = Ok actual →
  Forall2 (λ (e a : ty), e = a ∨ e ∈ direct_supertypes a)
    (Method.argument_types meth) actual →
  check_types (MethodCall (VariableExpr n d) m args) = Ok ().
Proof.
  intros Hnd Hm Hargs Hall.
  rewrite (check_types_method_call (VariableExpr n d) m args d meth d _ eq_refl Hnd Hm eq_refl Hargs).
  simpl. rewrite (promote_widening _ _ Hall).
  apply Forall2_length in Hall.
  by rewrite !bool_decide_eq_false_2 by congruence.
Qed.

(** X14.  A position that is neither equal nor one level apart: the call is refused
    with the message of the last test. *)
Lemma method_call_beyond_one_level n d m args meth actual (i : nat) (e a : ty) :
  d ∉ distinguished → method_named d m = Some meth →
  static_types args = Ok actual →
  length actual = length (Method.argument_types meth) →
  Method.argument_types meth !! i = Some e → actual !! i = Some a →
  a ≠ e → e ∉ direct_supertypes a →
  ∃ msg, check_types (MethodCall (VariableExpr n d) m args) = Raise (JavaTypeError msg).
Proof.
  intros Hnd Hm Hargs Hlen He Ha Hne Hnot.
  rewrite (check_types_method_call (VariableExpr n d) m args d meth d _ eq_refl Hnd Hm eq_refl Hargs).
  simpl. rewrite bool_decide_eq_false_2 by congruence.
  rewrite bool_decide_eq_true_2; [eauto |].
  intros Heq. by eapply (promote_mismatch _ actual i e a).
Qed.

(** X15.  A wrong number of arguments is reported before any type is compared. *)
Lemma method_call_arity n d m args meth actual :
  d ∉ distinguished → method_named d m = Some meth →
  static_types args = Ok actual →
  length actual ≠ length (Method.argument_types meth) →
  check_types (MethodCall (VariableExpr n d) m args) =
    Raise (JavaTypeError
      (arity_message (qualified_call d m) (Method.argument_types meth) actual)).
Proof.
  intros Hnd Hm Hargs Hlen.
  rewrite (check_types_method_call (VariableExpr n d) m args d meth d _ eq_refl Hnd Hm eq_refl Hargs).
  simpl. by rewrite bool_decide_eq_true_2.
Qed.

(** X16.  A constructor call of an instantiable type with a wrong number of
    arguments is refused with both numbers, before any type is compared. *)
Lemma constructor_call_arity t args actual :
  t ∉ distinguished → static_types args = Ok actual →
  length actual ≠ length (Constructor.argument_types (constructor t)) →
  check_types (ConstructorCall t args) =
    Raise (JavaTypeError
      ("Wrong number of arguments for " +:+ name t
       +:+ " constructor: expected "
       +:+ pretty (length (Constructor.argument_types (constructor t)))
       +:+ ", got " +:+ pretty (length actual))).
Proof.
  intros Hnd Hargs Hlen. rewrite (check_types_constructor_call _ _ _ Hnd Hargs).
  simpl. by rewrite bool_decide_eq_true_2.
Qed.

(** ** What the call nodes take from their children *)

(** A constructor call looks at its arguments through [static_type] only. *)
Lemma constructor_call_static_types t args args' :
  static_types args = static_types args' →
  check_types (ConstructorCall t args) = check_types (ConstructorCall t args').
Proof. intros H. unfold check_types. by rewrite H. Qed.

(** A method call looks at its arguments through [static_type] only, and at
    its receiver through [static_type] and the attribute [declared_type]. *)
Lemma method_call_static_types receiver receiver' m args args' :
  static_type receiver = static_type receiver' →
  declared_type receiver = declared_type receiver' →
  static_types args = static_types args' →
  check_types (MethodCall receiver m args) = check_types (MethodCall receiver' m args').
Proof.
  intros Hr Hd Hargs. unfold check_types; fold (@static_type ty TC).
  by rewrite Hr, Hd, Hargs.
Qed.

(** With variables as receivers the static type of the receiver decides. *)
Lemma method_call_variable_static_types n n' d m args args' :
  static_types args = static_types args' →
  check_types (MethodCall (VariableExpr n d) m args)
  = check_types (MethodCall (VariableExpr n' d) m args').
Proof. intros H. by apply method_call_static_types. Qed.

(** [Variable.check_types] never raises: its test compares a value with
    itself. *)
Lemma variable_check_types n d : check_types (VariableExpr n d) = Ok ().
Proof. unfold check_types. by rewrite bool_decide_eq_false_2 by congruence. Qed.

(** ** Literals *)

(** C1. [Literal] and [NullLiteral] do not define [check_types]: the call
    reaches [Expression.check_types], which raises [NotImplementedError]
    naming the class.  [static_type] returns the type given at construction,
    [Type.null] for [NullLiteral]. *)
Theorem literal_check_types_not_implemented (value : string) (type : ty) :
  check_types (Literal value type)
    = Raise (NotImplementedError "Literal must implement check_types()")
  ∧ check_types (NullLiteral : Expression ty)
    = Raise (NotImplementedError "NullLiteral must implement check_types()")
  ∧ static_type (Literal value type) = Ok type
  ∧ static_type (NullLiteral : Expression ty) = Ok null.
Proof. by repeat split. Qed.

(** ** Constructor calls *)

(** C5. A constructor call with the declared number of arguments, one of
    which has a static type other than the declared parameter type, raises
    [JavaTypeError]; whether the declared type is a direct supertype of the
    argument's type plays no role, since no promotion is attempted. *)
Theorem constructor_call_exact_types_only t args actual (i : nat) (a e : ty) :
  static_types args = Ok actual →
  length actual = length (Constructor.argument_types (constructor t)) →
  actual !! i = Some a →
  Constructor.argument_types (constructor t) !! i = Some e →
  a ≠ e →
  check_types (ConstructorCall t args) =
    Raise (JavaTypeError
      (if bool_decide (t ∈ distinguished)
       then "Type " +:+ name t +:+ " is not instantiable"
       else name t +:+ " constructor expects arguments of type "
            +:+ names (Constructor.argument_types (constructor t))
            +:+ ", but got " +:+ names actual)).
Proof.
  intros Hargs Hlen Ha He Hne. case_bool_decide as Hd.
  - unfold check_types. by rewrite bool_decide_eq_true_2.
  - rewrite (check_types_constructor_call _ _ _ Hd Hargs). simpl.
    rewrite bool_decide_eq_false_2 by congruence.
    rewrite bool_decide_eq_true_2; [done |].
    intros Heq. rewrite Heq in Ha. congruence.
Qed.

(** ** The distinguished types *)

(** C6, as the code has it.  A method call whose receiver has one of the
    five distinguished types as static type, and a constructor call of such
    a type, raise [JavaTypeError] with the messages
    [Type <name> does not have methods] and [Type <name> is not instantiable],
    neither ending in a full stop; the method name, the arguments and the
    tables of the type are not consulted, so the test comes first. *)
Theorem distinguished_type_rejected_first t receiver m args args' :
  t ∈ distinguished →
  (static_type receiver = Ok t →
   check_types (MethodCall receiver m args)
     = Raise (JavaTypeError ("Type " +:+ name t +:+ " does not have methods")))
  ∧ check_types (ConstructorCall t args')
     = Raise (JavaTypeError ("Type " +:+ name t +:+ " is not instantiable")).
Proof.
  intros Hd. split.
  - intros Ht. unfold check_types; fold (@static_type ty TC).
    rewrite Ht. simpl. by rewrite bool_decide_eq_true_2.
  - unfold check_types. by rewrite bool_decide_eq_true_2.
Qed.

(** ** The message of a refused method call *)

(** The text of the message when the argument types still differ from the
    declared ones after the promotion loop: the second list is
    [actual_types] as the loop left it, not the static types of the
    arguments. *)
Lemma method_call_type_error_message receiver m args t meth d actual :
  static_type receiver = Ok t → t ∉ distinguished →
  method_named t m = Some meth → declared_type receiver = Ok d →
  static_types args = Ok actual →
  length actual = length (Method.argument_types meth) →
  promote (Method.argument_types meth) actual ≠ Method.argument_types meth →
  check_types (MethodCall receiver m args) =
    Raise (JavaTypeError
      ((name d +:+ "." +:+ m +:+ "()") +:+ " expects arguments of type "
       +:+ names (Method.argument_types meth)
       +:+ ", but got " +:+ names (promote (Method.argument_types meth) actual))).
Proof.
  intros Ht Hnd Hm Hd Hargs Hlen Hne.
  rewrite (check_types_method_call _ _ _ _ _ _ _ Ht Hnd Hm Hd Hargs). simpl.
  rewrite bool_decide_eq_false_2 by congruence.
  by rewrite bool_decide_eq_true_2 by congruence.
Qed.

(** ** The attribute [declared_type] of the receiver *)

(** C10, as the code has it.  Once the receiver's static type is not
    distinguished and the lookup of the method has succeeded, [check_types]
    reads [receiver.declared_type] before it looks at any argument: a
    receiver that is not a [Variable] makes it raise [AttributeError]
    whatever the arguments are, and it ends without [AttributeError]
    exactly when the receiver is a [Variable]. *)
Theorem method_call_reads_declared_type receiver m args t meth :
  static_type receiver = Ok t → t ∉ distinguished →
  method_named t m = Some meth →
  ((∀ n d, receiver ≠ VariableExpr n d) →
   check_types (MethodCall receiver m args)
     = Raise (AttributeError (class_name receiver) "declared_type"))
  ∧ ((∀ cls attr, check_types (MethodCall receiver m args)
                    ≠ Raise (AttributeError cls attr))
     ↔ ∃ n, receiver = VariableExpr n t).
Proof.
  intros Ht Hnd Hm.
  assert (∀ x, declared_type receiver = Raise x →
    check_types (MethodCall receiver m args) = Raise x) as Hraise.
  { intros x Hx. unfold check_types; fold (@static_type ty TC).
    rewrite Ht. simpl. rewrite (bool_decide_eq_false_2 _ Hnd).
    unfold lookup_method. rewrite Hm. simpl. by rewrite Hx. }
  destruct receiver as [n d | v t' | | r m' args' | t' args'].
  - injection Ht as ->. split; [intros H; by destruct (H n t) |].
    split; [eauto |]. intros _ cls attr.
    destruct (static_types args) as [actual | x] eqn:Hargs.
    + rewrite (check_types_method_call (VariableExpr n t) m args t meth t actual
                 eq_refl Hnd Hm eq_refl Hargs).
      simpl. repeat case_bool_decide; discriminate.
    + unfold check_types. simpl. rewrite (bool_decide_eq_false_2 _ Hnd).
      unfold lookup_method. rewrite Hm. simpl. rewrite Hargs. simpl.
      apply static_types_raises in Hargs. intros [= ->]. done.
  - rewrite (Hraise _ eq_refl). split; [done |].
    split; [intros H; by destruct (H "Literal" "declared_type") | by intros [? [=]]].
  - rewrite (Hraise _ eq_refl). split; [done |].
    split; [intros H; by destruct (H "NullLiteral" "declared_type") | by intros [? [=]]].
  - rewrite (Hraise _ eq_refl). split; [done |].
    split; [intros H; by destruct (H "MethodCall" "declared_type") | by intros [? [=]]].
  - rewrite (Hraise _ eq_refl). split; [done |].
    split; [intros H; by destruct (H "ConstructorCall" "declared_type") | by intros [? [=]]].
Qed.

End Properties.

(** * Further properties of the module *)

Section Further.
Context {ty : Type} `{TC : TypeCapability ty}.
Implicit Types (t d : ty) (receiver item : Expression ty) (args : list (Expression ty)).
Implicit Types (expected actual : list ty).

(** ** The leaves *)

(** X1.  [Variable.check_types] compares [declared_type] with itself, so its
    [raise] is never reached, and [static_type] is the declared type. *)
Lemma variable_always_checks (n : string) d :
  check_types (VariableExpr n d) = Ok () ∧ static_type (VariableExpr n d) = Ok d.
Proof. split; [apply variable_check_types | done]. Qed.

(** ** [static_type] and the argument loop *)

(** X2.  [static_type] raises nothing but the exception of a failed method
    lookup: the [NotImplementedError] of [Expression.static_type] is out of
    reach, every class overriding the method. *)
Lemma static_type_only_lookup_fails (e : Expression ty) (x : exception) :
  static_type e = Raise x →
  ∃ type_name method_name, x = NoSuchMethod type_name method_name.
Proof. intros H%static_type_raises. destruct x; try done. eauto. Qed.

Lemma static_types_app_raise (before after : list (Expression ty)) item
    (ts : list ty) (x : exception) :
  static_types before = Ok ts → static_type item = Raise x →
  static_types (before ++ item :: after) = Raise x.
Proof.
  intros Hb Hi. revert ts Hb.
  induction before as [| b before IH]; intros ts Hb; simpl.
  - by rewrite Hi.
  - simpl in Hb. destruct (static_type b) as [t|y]; simpl in *; [| discriminate].
    destruct (static_types before) as [ts'|y]; simpl in *; [| discriminate].
    by rewrite (IH ts' eq_refl).
Qed.

(** X3.  The loop over [args] stops at the first argument whose [static_type]
    raises, and raises the same exception. *)
Lemma static_types_first_failure args (x : exception) :
  static_types args = Raise x ↔
  ∃ before item after (ts : list ty),
    args = (before ++ item :: after)%list
    ∧ static_types before = Ok ts
    ∧ static_type item = Raise x.
Proof.
  split.
  - induction args as [| a rest IH]; simpl; [discriminate |].
    destruct (static_type a) as [t|y] eqn:Ha; simpl.
    + destruct (static_types rest) as [ts|y] eqn:Hrest; simpl; [discriminate |].
      intros [= ->]. destruct (IH eq_refl) as (before & item & after & ts & -> & Hb & Hi).
      exists (a :: before), item, after, (t :: ts). simpl. by rewrite Ha, Hb.
    + intros [= ->]. by exists [], a, rest, [].
  - intros (before & item & after & ts & -> & Hb & Hi).
    by eapply static_types_app_raise.
Qed.

(** ** The promotion loop *)

Lemma promote_at_length expected actual (i : nat) :
  length (promote_at expected actual i) = length actual.
Proof.
  unfold promote_at. destruct (expected !! i); [| done].
  destruct (actual !! i); [| done].
  case_bool_decide; [apply length_insert | done].
Qed.

Lemma promote_steps_length expected actual (steps : list nat) :
  length (foldl (promote_at expected) actual steps) = length actual.
Proof.
  revert actual. induction steps as [| i steps IH]; intros actual; simpl; [done |].
  by rewrite IH, promote_at_length.
Qed.

(** X5.  The loop keeps the number of types, whatever the two lists are. *)
Lemma promote_length expected actual :
  length (promote expected actual) = length actual.
Proof. apply promote_steps_length. Qed.

(** X6.  Once the two lengths are equal, every index the loop visits is in range
    of both lists when it is visited: no subscript fails. *)
Lemma promote_in_range expected actual (i : nat) :
  length expected = length actual → (i < length expected)%nat →
  is_Some (expected !! i)
  ∧ is_Some (foldl (promote_at expected) actual (seq 0 i) !! i).
Proof.
  intros Hlen Hi. split; apply lookup_lt_is_Some_2; [done |].
  rewrite promote_steps_length. lia.
Qed.

(** X4.  At each position the loop leaves the declared type if it is a direct
    supertype of the argument's type, and the argument's type otherwise. *)
Lemma promote_at_position expected actual (i : nat) (e a : ty) :
  length expected = length actual →
  expected !! i = Some e → actual !! i = Some a →
  promote expected actual !! i
  = Some (if bool_decide (e ∈ direct_supertypes a) then e else a).
Proof. apply promote_lookup. Qed.

Lemma zip_with_widen_fixed expected actual :
  length expected = length actual →
  zip_with widen expected actual = expected →
  Forall2 (λ (e a : ty), e = a ∨ e ∈ direct_supertypes a) expected actual.
Proof.
  revert actual. induction expected as [| e es IH]; intros [| a as_] Hlen;
    simpl in *; try discriminate; [constructor |].
  intros [= Hhd Htl]. constructor; [| apply IH; [lia | done]].
  unfold widen in Hhd. case_bool_decide; [by right | by left].
Qed.

(** X7.  The loop leaves exactly [expected] if and only if every position is
    equal or one level apart. *)
Lemma promote_fixed_iff expected actual :
  length expected = length actual →
  promote expected actual = expected ↔
  Forall2 (λ (e a : ty), e = a ∨ e ∈ direct_supertypes a) expected actual.
Proof.
  intros Hlen. split; [| apply promote_widening].
  rewrite promote_zip_with by done. by apply zip_with_widen_fixed.
Qed.

(** X8.  Running the loop a second time changes nothing. *)
Lemma promote_idempotent expected actual :
  length expected = length actual →
  promote expected (promote expected actual) = promote expected actual.
Proof.
  intros Hlen.
  rewrite (promote_zip_with expected (promote expected actual))
    by (unfold promote; by rewrite promote_steps_length).
  rewrite promote_zip_with by done.
  revert actual Hlen. induction expected as [| e es IH]; intros [| a as_] Hlen;
    simpl in *; try discriminate; [done |].
  f_equal; [| apply IH; lia].
  unfold widen. repeat case_bool_decide; done.
Qed.

(** ** When a call checks *)

Lemma method_call_checks_inv receiver (m : string) args :
  check_types (MethodCall receiver m args) = Ok () →
  ∃ (n : string) d meth actual,
    receiver = VariableExpr n d
    ∧ (d ∉ distinguished)
    ∧ method_named d m = Some meth
    ∧ static_types args = Ok actual
    ∧ Forall2 (λ (e a : ty), e = a ∨ e ∈ direct_supertypes a)
        (Method.argument_types meth) actual.
Proof.
  intros H.
  assert (∃ (n : string) d meth actual,
    receiver = VariableExpr n d ∧ (d ∉ distinguished)
    ∧ method_named d m = Some meth ∧ static_types args = Ok actual)
    as (n & d & meth & actual & -> & Hnd & Hm & Hargs).
  { unfold check_types in H; fold (@static_type ty TC) in H.
    destruct (static_type receiver) as [t|y] eqn:Ht; simpl in H; [| discriminate].
    case_bool_decide as Hnd; [discriminate |].
    unfold lookup_method in H.
    destruct (method_named t m) as [meth|] eqn:Hm; simpl in H; [| discriminate].
    destruct receiver as [n d | | | |]; simpl in H; try discriminate.
    injection Ht as ->.
    destruct (static_types args) as [actual|y] eqn:Hargs; simpl in H; [| discriminate].
    by exists n, t, meth, actual. }
  exists n, d, meth, actual. repeat split; try done.
  rewrite (check_types_method_call (VariableExpr n d) m args d meth d actual
             eq_refl Hnd Hm eq_refl Hargs) in H.
  simpl in H. case_bool_decide as Hlen; [discriminate |].
  case_bool_decide as Hp; [discriminate |].
  assert (length (Method.argument_types meth) = length actual) as Hlen' by congruence.
  rewrite (promote_zip_with _ _ Hlen') in Hp.
  apply zip_with_widen_fixed; congruence.
Qed.

(** X9.  A method call checks exactly when its receiver is a [Variable] of a
    type that is not distinguished and has the method, every argument has a
    static type, and each declared parameter type equals the argument's type
    or is one of its direct supertypes. *)
Lemma method_call_checks_iff receiver (m : string) args :
  check_types (MethodCall receiver m args) = Ok () ↔
  ∃ (n : string) d meth actual,
    receiver = VariableExpr n d
    ∧ (d ∉ distinguished)
    ∧ method_named d m = Some meth
    ∧ static_types args = Ok actual
    ∧ Forall2 (λ (e a : ty), e = a ∨ e ∈ direct_supertypes a)
        (Method.argument_types meth) actual.
Proof.
  split; [apply method_call_checks_inv |].
  intros (n & d & meth & actual & -> & Hnd & Hm & Hargs & Hall).
  by eapply method_call_one_level.
Qed.

(** X10.  A constructor call checks exactly when the type is not distinguished
    and the static types of the arguments are the declared parameter types,
    one for one. *)
Lemma constructor_call_checks_iff t args :
  check_types (ConstructorCall t args) = Ok () ↔
  (t ∉ distinguished)
  ∧ static_types args = Ok (Constructor.argument_types (constructor t)).
Proof.
  split.
  - intros H. unfold check_types in H.
    case_bool_decide as Hnd; [discriminate |]. split; [done |].
    destruct (static_types args) as [actual|y]; simpl in H; [| discriminate].
    case_bool_decide; [discriminate |].
    case_bool_decide as Heq; [discriminate |]. congruence.
  - intros [Hnd Hargs]. rewrite (check_types_constructor_call _ _ _ Hnd Hargs).
    simpl. by rewrite !bool_decide_eq_false_2 by congruence.
Qed.

(** X11.  An expression that checks has a static type. *)
Lemma checked_has_static_type (e : Expression ty) :
  check_types e = Ok () → ∃ t, static_type e = Ok t.
Proof.
  destruct e as [n d | v t | | receiver m args | t args]; simpl; eauto;
    try discriminate.
  intros (n & d & meth & actual & -> & _ & Hm & _)%method_call_checks_inv.
  exists (Method.return_type meth). simpl. unfold lookup_method. by rewrite Hm.
Qed.

(** ** What [check_types] raises *)

(** X12.  The builtin [TypeError] of [Variable.check_types] is never raised;
    [NotImplementedError] comes from the two literal classes only,
    [AttributeError] from a method call only and for the attribute
    [declared_type] of its receiver, [JavaTypeError] and the exception of
    the lookup from the two call classes only. *)
Lemma check_types_raises (e : Expression ty) (x : exception) :
  check_types e = Raise x →
  match x with
  | TypeError _ => False
  | NotImplementedError msg =>
      msg = class_name e +:+ " must implement check_types()"
      ∧ (e = NullLiteral ∨ ∃ v t, e = Literal v t)
  | AttributeError cls attr =>
      attr = "declared_type"
      ∧ ∃ receiver m args, e = MethodCall receiver m args ∧ cls = class_name receiver
  | JavaTypeError _ | NoSuchMethod _ _ =>
      (∃ receiver m args, e = MethodCall receiver m args)
      ∨ (∃ t args, e = ConstructorCall t args)
  end.
Proof.
  destruct e as [n d | v t | | receiver m args | t args].
  - by rewrite variable_check_types.
  - simpl. intros [= <-]. eauto.
  - simpl. intros [= <-]. eauto.
  - unfold check_types; fold (@static_type ty TC).
    destruct (static_type receiver) as [t|y] eqn:Ht; simpl.
    2: { intros [= <-]. apply static_type_raises in Ht. destruct y; try done. eauto 6. }
    case_bool_decide; [intros [= <-]; eauto 6 |].
    unfold lookup_method. destruct (method_named t m) as [meth|]; simpl.
    2: { intros [= <-]. eauto 6. }
    destruct (declared_type receiver) as [d|y] eqn:Hd; simpl.
    2: { intros [= <-]. destruct receiver; simpl in Hd; try discriminate;
         injection Hd as <-; split; eauto. }
    destruct (static_types args) as [actual|y] eqn:Hargs; simpl.
    2: { intros [= <-]. apply static_types_raises in Hargs.
         destruct y; try done. eauto 6. }
    repeat case_bool_decide; try discriminate; intros [= <-]; eauto 6.
  - unfold check_types.
    case_bool_decide; [intros [= <-]; eauto |].
    destruct (static_types args) as [actual|y] eqn:Hargs; simpl.
    2: { intros [= <-]. apply static_types_raises in Hargs.
         destruct y; try done. eauto. }
    repeat case_bool_decide; try discriminate; intros [= <-]; eauto.
Qed.

(** ** The order of the tests *)

(** An exception of the receiver's [static_type] leaves [check_types] of
    the method call unchanged, whatever the method and the arguments. *)
Lemma method_call_receiver_raises receiver (m : string) args (x : exception) :
  static_type receiver = Raise x → check_types (MethodCall receiver m args) = Raise x.
Proof. intros H. unfold check_types; fold (@static_type ty TC). by rewrite H. Qed.

(** X17.  The static types of the arguments are computed before they are
    counted: an argument without a static type makes a constructor call of
    an instantiable type raise that argument's exception, whether or not
    the number of arguments is the declared one. *)
Lemma constructor_call_argument_raises t args before item after
    (ts : list ty) (x : exception) :
  t ∉ distinguished →
  args = (before ++ item :: after)%list →
  static_types before = Ok ts →
  static_type item = Raise x →
  check_types (ConstructorCall t args) = Raise x.
Proof.
  intros Hnd Hargs Hb Hi.
  assert (static_types args = Raise x) as Hx
    by (subst args; by eapply static_types_app_raise).
  unfold check_types. by rewrite (bool_decide_eq_false_2 _ Hnd), Hx.
Qed.

(** X18.  On a variable the same holds for a method call. *)
Lemma method_call_argument_raises (n : string) d (m : string) meth args before item
    after (ts : list ty) (x : exception) :
  d ∉ distinguished → method_named d m = Some meth →
  args = (before ++ item :: after)%list →
  static_types before = Ok ts →
  static_type item = Raise x →
  check_types (MethodCall (VariableExpr n d) m args) = Raise x.
Proof.
  intros Hnd Hm Hargs Hb Hi.
  assert (static_types args = Raise x) as Hx
    by (subst args; by eapply static_types_app_raise).
  unfold check_types. simpl. rewrite (bool_decide_eq_false_2 _ Hnd).
  unfold lookup_method. rewrite Hm. simpl. by rewrite Hx.
Qed.

(** ** Validation is not recursive *)

(** X19.  A constructor call whose arguments are literals of the declared
    parameter types checks, although [check_types] of each argument
    raises. *)
Lemma constructor_call_of_literals t (values : list string) :
  t ∉ distinguished →
  length values = length (Constructor.argument_types (constructor t)) →
  let args := zip_with Literal values (Constructor.argument_types (constructor t)) in
  check_types (ConstructorCall t args) = Ok ()
  ∧ Forall (λ item, check_types item
              = Raise (NotImplementedError "Literal must implement check_types()")) args.
Proof.
  intros Hnd Hlen args. split.
  - assert (static_types args = Ok (Constructor.argument_types (constructor t)))
      as Hargs.
    { subst args. revert values Hlen.
      induction (Constructor.argument_types (constructor t)) as [| e es IH];
        intros [| v vs] Hlen; simpl in *; try discriminate; [done |].
      by rewrite (IH vs) by lia. }
    rewrite (check_types_constructor_call _ _ _ Hnd Hargs). simpl.
    by rewrite !bool_decide_eq_false_2 by congruence.
  - subst args. apply Forall_forall. intros item Hin.
    apply list_elem_of_lookup in Hin as [i Hi].
    apply lookup_zip_with_Some in Hi as (v & e & -> & _ & _). done.
Qed.

(** ** The formatting helper *)

Lemma string_app_assoc (s1 s2 s3 : string) :
  (s1 +:+ s2) +:+ s3 = s1 +:+ (s2 +:+ s3).
Proof.
  induction s1 as [| a s1 IH]; [done |].
  change (String a ((s1 +:+ s2) +:+ s3) = String a (s1 +:+ (s2 +:+ s3))).
  by f_equal.
Qed.

(** X20.  Joining two lists that are not empty joins each and puts one separator
    between them. *)
Lemma join_app (sep : string) (l1 l2 : list string) :
  l1 ≠ [] → l2 ≠ [] →
  join sep (l1 ++ l2) = join sep l1 +:+ sep +:+ join sep l2.
Proof.
  intros H1 H2. induction l1 as [| x [| y l1] IH]; [done | |].
  - destruct l2; [done |]. reflexivity.
  - change (join sep ((x :: y :: l1) ++ l2))
      with (x +:+ sep +:+ join sep ((y :: l1) ++ l2)).
    rewrite IH by done. rewrite join_cons.
    by rewrite !string_app_assoc.
Qed.

(** X21.  [names] of a list with a first element: its name, then every further
    name behind a comma and a space. *)
Lemma names_cons t (l : list ty) :
  names (t :: l) = "(" +:+ name t +:+ foldr (λ u s, ", " +:+ name u +:+ s) ")" l.
Proof.
  unfold names. f_equal. revert t.
  induction l as [| u l IH]; intros t; [done |].
  rewrite fmap_cons, (fmap_cons name u l), join_cons, <- (fmap_cons name u l).
  rewrite !string_app_assoc. f_equal.
  change (foldr (λ u s, ", " +:+ name u +:+ s) ")" (u :: l))
    with (", " +:+ name u +:+ foldr (λ u s, ", " +:+ name u +:+ s) ")" l).
  rewrite <- IH. reflexivity.
Qed.

End Further.

Import Graphics.

(** * The checker on the class table *)

(** ** Instances of the general theorems *)

Lemma constructor_call_exact_types_only_witness :
  Shape ∈ direct_supertypes Rectangle
  ∧ check_types (ConstructorCall Canvas [var_r]) =
      Raise (JavaTypeError
        "Canvas constructor expects arguments of type (Shape), but got (Rectangle)").
Proof.
  split; [compute_done |].
  assert (Rectangle ≠ Shape) as Hne by discriminate.
  exact (constructor_call_exact_types_only Canvas [var_r] [Rectangle] 0 Rectangle Shape
           eq_refl eq_refl eq_refl eq_refl Hne).
Defined.

Lemma distinguished_type_rejected_first_witness :
  check_types (MethodCall (VariableExpr "x" Int) "toString" [])
    = Raise (JavaTypeError "Type int does not have methods")
  ∧ check_types (ConstructorCall Int [Literal "1" Int])
    = Raise (JavaTypeError "Type int is not instantiable").
Proof.
  assert (Int ∈ distinguished) as Hd by compute_done.
  destruct (distinguished_type_rejected_first Int (VariableExpr "x" Int)
              "toString" [] [Literal "1" Int] Hd) as [Hm Hc].
  split; [exact (Hm eq_refl) | exact Hc].
Defined.

Lemma method_call_type_error_message_witness :
  check_types (MethodCall var_c "place" [var_r; Literal "5" Int]) =
    Raise (JavaTypeError
      "Canvas.place() expects arguments of type (Shape, Point), but got (Shape, int)").
Proof.
  assert (Canvas ∉ distinguished) as Hnd by compute_done.
  assert (promote [Shape; Point] [Rectangle; Int] ≠ [Shape; Point]) as Hne
    by (vm_compute; discriminate).
  exact (method_call_type_error_message var_c "place" [var_r; Literal "5" Int]
           Canvas (Method.Build [Shape; Point] Void) Canvas [Rectangle; Int]
           eq_refl Hnd eq_refl eq_refl eq_refl eq_refl Hne).
Defined.

Lemma method_call_reads_declared_type_witness :
  check_types (MethodCall lit_hi "length" [])
    = Raise (AttributeError "Literal" "declared_type").
Proof.
  assert (JString ∉ distinguished) as Hnd by compute_done.
  apply (proj1 (method_call_reads_declared_type lit_hi "length" [] JString
                  (Method.Build [] Int) eq_refl Hnd eq_refl)).
  discriminate.
Defined.

(** ** The examples of the spec *)

Example int_receiver_has_no_methods :
  check_types (MethodCall (VariableExpr "n" Int) "toString" [])
  = Raise (JavaTypeError "Type int does not have methods").
Proof. reflexivity. Qed.

Example point_of_two_ints :
  check_types new_point = Ok () ∧ static_type new_point = Ok Point.
Proof. split; reflexivity. Qed.

Example equals_without_argument :
  check_types (MethodCall (VariableExpr "o" Object) "equals" [])
  = Raise (JavaTypeError
      "Wrong number of arguments for Object.equals(): expected 1, got 0").
Proof. reflexivity. Qed.

(** ** Inputs at which a claim fails as it is worded *)

(** C6: the two messages do not end in a full stop. *)
Lemma distinguished_messages_without_full_stop :
  check_types (MethodCall (VariableExpr "x" Int) "toString" [])
    ≠ Raise (JavaTypeError "Type int does not have methods.")
  ∧ check_types (ConstructorCall Int [])
    ≠ Raise (JavaTypeError "Type int is not instantiable.").
Proof. split; vm_compute; discriminate. Qed.

(** C8.  In [c.place(r, 5)], with [place(Shape, Point)], the arguments have
    the static types [Rectangle] and [int].  The loop overwrites the first
    entry of [actual_types] with [Shape], the second still differs from
    [Point], and the message, formatted from the overwritten list, says
    [but got (Shape, int)]: the rendering of the argument types does not
    occur in it.  Where nothing is promoted, as in [c.place(q, 5)], and in
    the message of a constructor call, the argument types are reported as
    they are. *)
Lemma method_call_message_shows_promoted_types :
  static_types [var_r; Literal "5" Int] = Ok [Rectangle; Int]
  ∧ names [Rectangle; Int] = "(Rectangle, int)"
  ∧ (∃ msg,
      check_types (MethodCall var_c "place" [var_r; Literal "5" Int])
        = Raise (JavaTypeError msg)
      ∧ msg = "Canvas.place() expects arguments of type (Shape, Point), but got (Shape, int)"
      ∧ String.index 0 (names [Rectangle; Int]) msg = None
      ∧ String.index 0 (names [Shape; Int]) msg = Some 65)
  ∧ check_types (MethodCall var_c "place" [var_q; Literal "5" Int])
    = Raise (JavaTypeError
        "Canvas.place() expects arguments of type (Shape, Point), but got (Square, int)")
  ∧ check_types (ConstructorCall Canvas [var_r])
    = Raise (JavaTypeError
        "Canvas constructor expects arguments of type (Shape), but got (Rectangle)").
Proof.
  split; [reflexivity |]. split; [reflexivity |]. split.
  - eexists. split; [reflexivity |]. split; [reflexivity |]. split; by vm_compute.
  - split; reflexivity.
Qed.

(** C10: the receiver is a [Literal] of the type [String], which is not
    distinguished and has no method [trim]: the lookup raises before
    [declared_type] is read. *)
Lemma method_call_lookup_precedes_declared_type :
  static_type lit_hi = Ok JString
  ∧ (JString ∉ distinguished)
  ∧ check_types (MethodCall lit_hi "trim" []) = Raise (NoSuchMethod "String" "trim")
  ∧ ∀ cls attr, check_types (MethodCall lit_hi "trim" []) ≠ Raise (AttributeError cls attr).
Proof.
  split; [reflexivity |]. split; [compute_done |]. split; [reflexivity |].
  intros cls attr. vm_compute. discriminate.
Qed.

(** ** Method calls whose receiver is not a variable

    [MethodCall.check_types] builds the name of the call from
    [self.receiver.declared_type], an attribute only [Variable] has, whereas
    the receiver is any [Expression] and its type is read everywhere else
    through [static_type()].  The evaluations below are inputs at which
    this one defect shows. *)

(** C2.  In [hi.equals(o)] the receiver is a literal of the type [String],
    which declares [equals(Object)]; the one argument has exactly the
    declared type and [static_type] gives the declared return type, yet
    [check_types] raises [AttributeError]. *)
Lemma exact_call_on_literal_receiver :
  static_type lit_hi = Ok JString
  ∧ (JString ∉ distinguished)
  ∧ method_named JString "equals" = Some (Method.Build [Object] Boolean)
  ∧ static_types [VariableExpr "o" Object] = Ok [Object]
  ∧ static_type (MethodCall lit_hi "equals" [VariableExpr "o" Object]) = Ok Boolean
  ∧ check_types (MethodCall lit_hi "equals" [VariableExpr "o" Object])
    = Raise (AttributeError "Literal" "declared_type")
  ∧ check_types (MethodCall (VariableExpr "s" JString) "equals" [VariableExpr "o" Object])
    = Ok ().
Proof. repeat split; compute_done. Qed.

(** C3.  In [new Canvas(s).draw(r)] the declared parameter type [Shape] is
    a direct supertype of the argument's type [Rectangle]; on the variable
    [c] the call checks, on the constructor call it raises
    [AttributeError]. *)
Lemma widened_call_on_constructed_receiver :
  static_type new_canvas = Ok Canvas
  ∧ method_named Canvas "draw" = Some (Method.Build [Shape] Void)
  ∧ static_types [var_r] = Ok [Rectangle]
  ∧ Shape ∈ direct_supertypes Rectangle
  ∧ check_types (MethodCall var_c "draw" [var_r]) = Ok ()
  ∧ check_types (MethodCall new_canvas "draw" [var_r])
    = Raise (AttributeError "ConstructorCall" "declared_type").
Proof. repeat split; compute_done. Qed.

(** C4.  [Square] reaches [Shape] through [Rectangle] only; on the variable
    [c] the call [draw(q)] raises [JavaTypeError], on the constructor call
    it raises [AttributeError] instead. *)
Lemma two_level_call_on_constructed_receiver :
  method_named Canvas "draw" = Some (Method.Build [Shape] Void)
  ∧ static_types [var_q] = Ok [Square]
  ∧ Rectangle ∈ direct_supertypes Square
  ∧ Shape ∈ direct_supertypes Rectangle
  ∧ (Shape ∉ direct_supertypes Square)
  ∧ check_types (MethodCall var_c "draw" [var_q])
    = Raise (JavaTypeError
        "Canvas.draw() expects arguments of type (Shape), but got (Square)")
  ∧ check_types (MethodCall new_canvas "draw" [var_q])
    = Raise (AttributeError "ConstructorCall" "declared_type").
Proof. repeat split; compute_done. Qed.

(** C7.  In [c.origin().getX(1)] the method [getX] of [Point] declares no
    parameter and gets one argument; the receiver is a method call, and
    [check_types] raises [AttributeError] before it counts.  On a variable,
    and for a constructor call, the two counts are reported. *)
Lemma arity_of_call_on_method_call_receiver :
  static_type origin_of_c = Ok Point
  ∧ method_named Point "getX" = Some (Method.Build [] Int)
  ∧ check_types (MethodCall origin_of_c "getX" [Literal "1" Int])
    = Raise (AttributeError "MethodCall" "declared_type")
  ∧ check_types (MethodCall var_p "getX" [Literal "1" Int])
    = Raise (JavaTypeError "Wrong number of arguments for Point.getX(): expected 0, got 1")
  ∧ check_types (ConstructorCall Point [Literal "1" Int])
    = Raise (JavaTypeError
        "Wrong number of arguments for Point constructor: expected 2, got 1").
Proof. repeat split; compute_done. Qed.

(** C9.  [p.getX()] and [new Point(0, 0).getX()] have receivers of the same
    static type and no arguments; the first checks, the second raises
    [AttributeError]: what [check_types] takes from the receiver is not its
    static type alone.  Neither call runs [check_types] on a child: the
    outer constructor call below checks although its argument, taken alone,
    does not. *)
Lemma same_static_types_different_outcome :
  static_type var_p = static_type new_point
  ∧ check_types (MethodCall var_p "getX" []) = Ok ()
  ∧ check_types (MethodCall new_point "getX" [])
    = Raise (AttributeError "ConstructorCall" "declared_type")
  ∧ check_types new_point = Ok ()
  ∧ check_types (Literal "0" Int)
    = Raise (NotImplementedError "Literal must implement check_types()").
Proof. repeat split; compute_done. Qed.

(** ** Instances of the further properties *)

Lemma static_type_only_lookup_fails_witness :
  static_type (MethodCall lit_hi "trim" []) = Raise (NoSuchMethod "String" "trim")
  ∧ ∃ type_name method_name,
      NoSuchMethod "String" "trim" = NoSuchMethod type_name method_name.
Proof.
  split; [reflexivity |].
  apply (static_type_only_lookup_fails (MethodCall lit_hi "trim" [])). reflexivity.
Defined.

Lemma promote_at_position_witness :
  promote [Shape; Point] [Rectangle; Int] !! 0%nat = Some Shape
  ∧ promote [Shape; Point] [Rectangle; Int] !! 1%nat = Some Int.
Proof.
  split.
  - exact (promote_at_position [Shape; Point] [Rectangle; Int] 0 Shape Rectangle
             eq_refl eq_refl eq_refl).
  - exact (promote_at_position [Shape; Point] [Rectangle; Int] 1 Point Int
             eq_refl eq_refl eq_refl).
Defined.

Lemma promote_in_range_witness :
  is_Some ([Shape; Point] !! 1%nat)
  ∧ is_Some (foldl (promote_at [Shape; Point]) [Rectangle; Int] (seq 0 1) !! 1%nat).
Proof.
  apply (promote_in_range [Shape; Point] [Rectangle; Int] 1); [reflexivity | simpl; lia].
Defined.

Lemma promote_fixed_iff_witness :
  promote [Shape; Point] [Rectangle; Point] = [Shape; Point]
  ↔ Forall2 (λ e a, e = a ∨ e ∈ direct_supertypes a) [Shape; Point] [Rectangle; Point].
Proof. apply (promote_fixed_iff [Shape; Point] [Rectangle; Point]). reflexivity. Defined.

Lemma promote_idempotent_witness :
  promote [Shape; Point] (promote [Shape; Point] [Rectangle; Int])
  = promote [Shape; Point] [Rectangle; Int].
Proof. apply (promote_idempotent [Shape; Point] [Rectangle; Int]). reflexivity. Defined.

Lemma checked_has_static_type_witness :
  ∃ t, static_type (MethodCall var_c "draw" [var_r]) = Ok t.
Proof. apply (checked_has_static_type (MethodCall var_c "draw" [var_r])). reflexivity. Defined.

Lemma check_types_raises_witness :
  "declared_type" = "declared_type"
  ∧ ∃ receiver m args,
      MethodCall lit_hi "length" [] = MethodCall receiver m args
      ∧ "Literal" = class_name receiver.
Proof.
  exact (check_types_raises (MethodCall lit_hi "length" [])
           (AttributeError "Literal" "declared_type") eq_refl).
Defined.

Lemma method_call_exact_types_witness :
  check_types (MethodCall (VariableExpr "s" JString) "equals" [VariableExpr "o" Object])
    = Ok ()
  ∧ static_type (MethodCall (VariableExpr "s" JString) "equals" [VariableExpr "o" Object])
    = Ok Boolean.
Proof.
  assert (JString ∉ distinguished) as Hnd by compute_done.
  exact (method_call_exact_types "s" JString "equals" [VariableExpr "o" Object]
           (Method.Build [Object] Boolean) Hnd eq_refl eq_refl).
Defined.

Lemma method_call_beyond_one_level_witness :
  ∃ msg, check_types (MethodCall (VariableExpr "c" Canvas) "draw" [var_q])
         = Raise (JavaTypeError msg).
Proof.
  assert (Canvas ∉ distinguished) as Hnd by compute_done.
  assert (Square ≠ Shape) as Hne by discriminate.
  assert (Shape ∉ direct_supertypes Square) as Hnot by compute_done.
  exact (method_call_beyond_one_level "c" Canvas "draw" [var_q]
           (Method.Build [Shape] Void) [Square] 0 Shape Square
           Hnd eq_refl eq_refl eq_refl eq_refl eq_refl Hne Hnot).
Defined.

Lemma method_call_arity_witness :
  check_types (MethodCall (VariableExpr "o" Object) "equals" [])
  = Raise (JavaTypeError
      "Wrong number of arguments for Object.equals(): expected 1, got 0").
Proof.
  assert (Object ∉ distinguished) as Hnd by compute_done.
  assert (length (@nil JavaType) ≠ length [Object]) as Hlen by discriminate.
  exact (method_call_arity "o" Object "equals" [] (Method.Build [Object] Boolean) []
           Hnd eq_refl eq_refl Hlen).
Defined.

Lemma constructor_call_arity_witness :
  check_types (ConstructorCall Point [Literal "1" Int])
  = Raise (JavaTypeError
      "Wrong number of arguments for Point constructor: expected 2, got 1").
Proof.
  assert (Point ∉ distinguished) as Hnd by compute_done.
  assert (length [Int] ≠ length [Int; Int]) as Hlen by discriminate.
  exact (constructor_call_arity Point [Literal "1" Int] [Int] Hnd eq_refl Hlen).
Defined.

Lemma constructor_call_argument_raises_witness :
  check_types
    (ConstructorCall Point [Literal "0" Int; MethodCall lit_hi "trim" []; Literal "1" Int])
  = Raise (NoSuchMethod "String" "trim").
Proof.
  assert (Point ∉ distinguished) as Hnd by compute_done.
  exact (constructor_call_argument_raises Point _ [Literal "0" Int]
           (MethodCall lit_hi "trim" []) [Literal "1" Int] [Int]
           (NoSuchMethod "String" "trim") Hnd eq_refl eq_refl eq_refl).
Defined.

Lemma method_call_argument_raises_witness :
  check_types (MethodCall (VariableExpr "c" Canvas) "draw" [MethodCall lit_hi "trim" []])
  = Raise (NoSuchMethod "String" "trim").
Proof.
  assert (Canvas ∉ distinguished) as Hnd by compute_done.
  exact (method_call_argument_raises "c" Canvas "draw" (Method.Build [Shape] Void) _ []
           (MethodCall lit_hi "trim" []) [] [] (NoSuchMethod "String" "trim")
           Hnd eq_refl eq_refl eq_refl eq_refl).
Defined.

Lemma constructor_call_of_literals_witness :
  check_types (ConstructorCall Point [Literal "0" Int; Literal "0" Int]) = Ok ()
  ∧ Forall (λ item, check_types item
              = Raise (NotImplementedError "Literal must implement check_types()"))
      [Literal "0" Int; Literal "0" Int].
Proof.
  assert (Point ∉ distinguished) as Hnd by compute_done.
  exact (constructor_call_of_literals Point ["0"; "0"] Hnd eq_refl).
Defined.

Lemma join_app_witness :
  join ", " (["Shape"] ++ ["Point"; "int"])
  = join ", " ["Shape"] +:+ ", " +:+ join ", " ["Point"; "int"].
Proof. apply (join_app ", " ["Shape"] ["Point"; "int"]); discriminate. Defined.
